(** * The posting process of the Privly Chrome extension

    A shallow embedding of
    [src/javascripts/background_scripts/posting_process.js] and the
    properties of its session state machine.

    The background script keeps four top-level variables and reads one
    key of [localStorage].  Every function of the script is a handler
    the browser calls and runs to completion; a handler reads and writes
    the variables, calls the [chrome.*] API, and can stop half way with a
    [TypeError] when it dereferences [undefined].  A handler is therefore
    embedded as a function from the variables to a completion, the
    variables afterwards, and the list of API calls it made, in order. *)

From Stdlib Require Import ZArith String List Lia.
From stdpp Require Import base option strings gmap.
Import ListNotations.

Local Open Scope Z_scope.
Local Open Scope string_scope.

(** ** JavaScript values that travel in messages *)

Inductive value : Type :=
| VUndefined
| VNull
| VBool (b : bool)
| VNumber (n : Z)
| VString (s : string).

(** [a === b] on the values above. *)
Definition strict_equals (a b : value) : bool :=
  match a, b with
  | VUndefined, VUndefined => true
  | VNull, VNull => true
  | VBool x, VBool y => Bool.eqb x y
  | VNumber x, VNumber y => Z.eqb x y
  | VString x, VString y => String.eqb x y
  | _, _ => false
  end.

(** [s.indexOf(pat)]: the least position at which [pat] occurs in [s],
    or [-1]. *)
Fixpoint indexOf_from (pat s : string) (i : Z) : Z :=
  if String.prefix pat s then i
  else match s with
       | EmptyString => -1
       | String _ s' => indexOf_from pat s' (i + 1)
       end.

Definition indexOf (s pat : string) : Z := indexOf_from pat s 0.

(** ** Browser objects *)

Record Tab : Type := { tab_id : Z; tab_url : string }.

(** [newWindow] as [chrome.windows.create] hands it to its callback. *)
Record Window : Type := { win_tabs : list Tab }.

(** The [sender] of a message; [sender.tab] is [undefined] for a message
    that does not come from a tab. *)
Record MessageSender : Type := { sender_tab : option Tab }.

(** The [request] of a message: the three properties the script reads. *)
Record Request : Type := { handler : value; data : value; ask : value }.

(** The first argument of [postingHandler]: the [OnClickData] of a
    context-menu click, whose [selectionText] is optional, or the number
    the [newPost] listener passes instead. *)
Inductive Info : Type :=
| OnClickData (selectionText : option string)
| InfoNumber (n : Z).

(** [info.selectionText]; a number has no such property. *)
Definition info_selectionText (info : Info) : option string :=
  match info with
  | OnClickData sel => sel
  | InfoNumber _ => None
  end.

(** ** What the script sends *)

(** A message to a tab's content script: [{pendingPost: b}] or
    [{privlyUrl: v, pendingPost: b}]. *)
Record TabMessage : Type :=
  { msg_privlyUrl : option value; msg_pendingPost : bool }.

(** The argument of [sendResponse]. *)
Record Response : Type :=
  { resp_secret : value;
    resp_initialContent : option string;
    resp_handler : string }.

(** The first argument of [chrome.windows.create]. *)
Record CreateData : Type :=
  { cd_url : string; cd_focused : bool; cd_top : Z; cd_left : Z;
    cd_type : string }.

(** The API calls of the script.  [WindowsCreate] carries the variable
    its callback closes over, [sourceTab]; the callback itself is
    [postingHandler_created] below. *)
Inductive Effect : Type :=
| WindowsCreate (createData : CreateData) (sourceTab : option Tab)
| TabsSendMessage (tabId : Z) (message : TabMessage)
| TabsUpdate (tabId : Z) (selected : bool)
| TabsRemove (tabId : Z)
| NotificationShow (icon title body : string)
| SendResponse (response : Response).

(** ** The variables of the script *)

Record Globals : Type :=
  { messageSecret : value;
    postingResultTab : option Tab;
    postingApplicationTabId : option Z;
    postingApplicationStartingValue : string;
    localStorage : gmap string string }.

(** The values the script gives its variables when it is loaded. *)
Definition initial (storage : gmap string string) : Globals :=
  {| messageSecret := VNull;
     postingResultTab := None;
     postingApplicationTabId := None;
     postingApplicationStartingValue := "";
     localStorage := storage |}.

Definition set_messageSecret (v : value) (g : Globals) : Globals :=
  {| messageSecret := v;
     postingResultTab := postingResultTab g;
     postingApplicationTabId := postingApplicationTabId g;
     postingApplicationStartingValue := postingApplicationStartingValue g;
     localStorage := localStorage g |}.

Definition set_postingResultTab (t : option Tab) (g : Globals) : Globals :=
  {| messageSecret := messageSecret g;
     postingResultTab := t;
     postingApplicationTabId := postingApplicationTabId g;
     postingApplicationStartingValue := postingApplicationStartingValue g;
     localStorage := localStorage g |}.

Definition set_postingApplicationTabId (i : option Z) (g : Globals)
  : Globals :=
  {| messageSecret := messageSecret g;
     postingResultTab := postingResultTab g;
     postingApplicationTabId := i;
     postingApplicationStartingValue := postingApplicationStartingValue g;
     localStorage := localStorage g |}.

Definition set_postingApplicationStartingValue (s : string) (g : Globals)
  : Globals :=
  {| messageSecret := messageSecret g;
     postingResultTab := postingResultTab g;
     postingApplicationTabId := postingApplicationTabId g;
     postingApplicationStartingValue := s;
     localStorage := localStorage g |}.

Definition set_localStorage (m : gmap string string) (g : Globals)
  : Globals :=
  {| messageSecret := messageSecret g;
     postingResultTab := postingResultTab g;
     postingApplicationTabId := postingApplicationTabId g;
     postingApplicationStartingValue := postingApplicationStartingValue g;
     localStorage := m |}.

(** The session is idle when no surface is bound. *)
Definition idle (g : Globals) : Prop :=
  postingResultTab g = None /\ postingApplicationTabId g = None.

(** ** Handlers *)

Inductive JSError : Type := TypeError (what : string).

Inductive completion (A : Type) : Type :=
| Normal (a : A)
| Throw (e : JSError).
Arguments Normal {A} a.
Arguments Throw {A} e.

Definition Script (A : Type) : Type :=
  Globals -> completion A * Globals * list Effect.

Definition ret {A : Type} (a : A) : Script A :=
  fun g => (Normal a, g, []).

Definition bind {A B : Type} (m : Script A) (k : A -> Script B) : Script B :=
  fun g =>
    match m g with
    | (Normal a, g1, es1) =>
        match k a g1 with
        | (r, g2, es2) => (r, g2, (es1 ++ es2)%list)
        end
    | (Throw e, g1, es1) => (Throw e, g1, es1)
    end.

Declare Scope script_scope.
Delimit Scope script_scope with script.
Bind Scope script_scope with Script.
Notation "x <- m ;; k" := (bind m (fun x => k))
  (at level 100, m at next level, right associativity) : script_scope.
Notation "m ;;; k" := (bind m (fun _ => k))
  (at level 100, right associativity) : script_scope.
Local Open Scope script_scope.

Definition read {A : Type} (f : Globals -> A) : Script A :=
  fun g => (Normal (f g), g, []).

Definition assign (f : Globals -> Globals) : Script unit :=
  fun g => (Normal tt, f g, []).

Definition call (e : Effect) : Script unit :=
  fun g => (Normal tt, g, [e]).

Definition throw {A : Type} (e : JSError) : Script A :=
  fun g => (Throw e, g, []).

(** [o.p] where [o] may be [undefined]. *)
Definition deref {A : Type} (what : string) (o : option A) : Script A :=
  match o with
  | Some a => ret a
  | None => throw (TypeError what)
  end.

(** [a && b], where evaluating [b] can throw. *)
Definition and_then (a : bool) (b : Script bool) : Script bool :=
  if a then b else ret false.

Definition completed {A : Type} (r : completion A * Globals * list Effect)
  : completion A := fst (fst r).
Definition globals_after {A : Type}
  (r : completion A * Globals * list Effect) : Globals := snd (fst r).
Definition effects_of {A : Type} (r : completion A * Globals * list Effect)
  : list Effect := snd r.

(** [id === postingApplicationTabId], the variable being [undefined] or a
    tab id. *)
Definition tabId_equals (i : Z) (o : option Z) : bool :=
  match o with
  | Some j => Z.eqb i j
  | None => false
  end.

(** ** The functions of the script *)

Definition warning : Effect :=
  NotificationShow "../../images/logo_48.png" "Privly Warning"
    "Close the posting window or finish the post before starting a new post.".

Definition pendingPost (b : bool) : TabMessage :=
  {| msg_privlyUrl := None; msg_pendingPost := b |}.

Section Extension.

(** The id Chrome gave the extension; [chrome.extension.getURL] puts it
    in front of a path relative to the extension's directory. *)
Variable extension_id : string.

Definition getURL (path : string) : string :=
  "chrome-extension://" +:+ extension_id +:+ "/" +:+ path.

Definition postingHandler (info : Info) (sourceTab : option Tab)
    (postingApplicationName : string) : Script unit :=
  appTab <- read postingApplicationTabId ;;
  match appTab with
  | None =>
      stored <- read (fun g => localStorage g !! "posting_content_server_url") ;;
      postingDomain <-
        match stored with
        | Some domain => ret domain
        | None =>
            let domain := "https://privlyalpha.org" in
            assign (fun g =>
              set_localStorage
                (<["posting_content_server_url" := domain]> (localStorage g))
                g) ;;;
            ret domain
        end ;;
      let postingApplicationUrl :=
        getURL ("privly-applications/" +:+ postingApplicationName
                +:+ "/new.html") in
      assign (set_postingApplicationStartingValue
                match info_selectionText info with
                | Some text => text
                | None => ""
                end) ;;;
      call (WindowsCreate
              {| cd_url := postingApplicationUrl; cd_focused := true;
                 cd_top := 0; cd_left := 0; cd_type := "normal" |}
              sourceTab)
  | Some _ => call warning
  end.

(** The callback [postingHandler] gives [chrome.windows.create]. *)
Definition postingHandler_created (sourceTab : option Tab)
    (newWindow : Window) : Script unit :=
  tab <- deref "tab" (head (win_tabs newWindow)) ;;
  assign (set_postingApplicationTabId (Some (tab_id tab))) ;;;
  assign (set_postingResultTab sourceTab) ;;;
  resultTab <- read postingResultTab ;;
  host <- deref "postingResultTab" resultTab ;;
  call (TabsSendMessage (tab_id host) (pendingPost true)).

(** The listener of [chrome.runtime.onMessage] for the Privly button. *)
Definition newPostListener (request : Request) (sender : MessageSender)
  : Script unit :=
  if strict_equals (ask request) (VString "newPost")
  then postingHandler (InfoNumber 0) (sender_tab sender) "ZeroBin"
  else ret tt.

End Extension.

Definition receiveNewPrivlyUrl (request : Request) (sender : MessageSender)
  : Script unit :=
  resultTab <- read postingResultTab ;;
  if strict_equals (handler request) (VString "privlyUrl")
     && bool_decide (resultTab <> None)
  then
    host <- deref "postingResultTab" resultTab ;;
    call (TabsUpdate (tab_id host) true) ;;;
    call (TabsSendMessage (tab_id host)
            {| msg_privlyUrl := Some (data request);
               msg_pendingPost := false |}) ;;;
    app <- deref "sender.tab" (sender_tab sender) ;;
    call (TabsRemove (tab_id app)) ;;;
    assign (set_postingApplicationTabId None) ;;;
    assign (set_postingResultTab None)
  else ret tt.

Definition initialContent_response (secret : value) (content : string)
  : Response :=
  {| resp_secret := secret; resp_initialContent := Some content;
     resp_handler := "initialContent" |}.

(** [request.handler === "initialContent" &&
     sender.tab.id === postingApplicationTabId] *)
Definition from_posting_application (request : Request)
    (sender : MessageSender) : Script bool :=
  and_then (strict_equals (handler request) (VString "initialContent"))
    (tab <- deref "sender.tab" (sender_tab sender) ;;
     appTab <- read postingApplicationTabId ;;
     ret (tabId_equals (tab_id tab) appTab)).

Definition initializeMessagePathway (request : Request)
    (sender : MessageSender) : Script unit :=
  fromExtension <-
    and_then (strict_equals (handler request) (VString "messageSecret"))
      (tab <- deref "sender.tab" (sender_tab sender) ;;
       ret (Z.eqb (indexOf (tab_url tab) "chrome-extension://") 0)) ;;
  if fromExtension then
    assign (set_messageSecret (data request)) ;;;
    secret <- read messageSecret ;;
    call (SendResponse
            {| resp_secret := secret; resp_initialContent := None;
               resp_handler := "messageSecret" |})
  else
    fromApp <- from_posting_application request sender ;;
    if fromApp then
      secret <- read messageSecret ;;
      content <- read postingApplicationStartingValue ;;
      call (SendResponse (initialContent_response secret content))
    else ret tt.

Definition sendInitialContent (request : Request) (sender : MessageSender)
  : Script unit :=
  fromApp <- from_posting_application request sender ;;
  if fromApp then
    secret <- read messageSecret ;;
    content <- read postingApplicationStartingValue ;;
    call (SendResponse (initialContent_response secret content))
  else if strict_equals (handler request) (VString "initialContent") then
    secret <- read messageSecret ;;
    call (SendResponse (initialContent_response secret ""))
  else ret tt.

Definition clear_session : Script unit :=
  assign (set_postingResultTab None) ;;;
  assign (set_postingApplicationTabId None) ;;;
  assign (set_postingApplicationStartingValue "").

Definition tabRemoved (tabId : Z) : Script unit :=
  resultTab <- read postingResultTab ;;
  appTab <- read postingApplicationTabId ;;
  match resultTab, appTab with
  | Some host, Some app =>
      if Z.eqb tabId app then
        call (TabsSendMessage (tab_id host) (pendingPost false)) ;;;
        clear_session
      else if Z.eqb tabId (tab_id host) then
        call (TabsRemove app) ;;;
        clear_session
      else ret tt
  | _, _ => ret tt
  end.

(** The three context menus that post, with the application each opens. *)
Inductive PostingMenu : Type := PostWithZeroBin | PostWithPlainPost
                              | PostExistingContent.

Definition menu_application (m : PostingMenu) : string :=
  match m with
  | PostWithZeroBin => "ZeroBin"
  | PostWithPlainPost => "PlainPost"
  | PostExistingContent => "Index"
  end.

(** A trigger event: a click on one of the menus, or a message to the
    [newPost] listener. *)
Inductive Trigger : Type :=
| MenuClick (menu : PostingMenu) (info : Info) (tab : option Tab)
| RuntimeMessage (request : Request) (sender : MessageSender).

Definition fire (extension_id : string) (t : Trigger) : Script unit :=
  match t with
  | MenuClick menu info tab =>
      postingHandler extension_id info tab (menu_application menu)
  | RuntimeMessage request sender =>
      newPostListener extension_id request sender
  end.

(** Whether the trigger reaches [postingHandler]. *)
Definition invokes_postingHandler (t : Trigger) : bool :=
  match t with
  | MenuClick _ _ _ => true
  | RuntimeMessage request _ =>
      strict_equals (ask request) (VString "newPost")
  end.

Fixpoint fire_all (extension_id : string) (ts : list Trigger)
  : Script unit :=
  match ts with
  | [] => ret tt
  | t :: ts' => fire extension_id t ;;; fire_all extension_id ts'
  end.

(** ** What the statements below speak of *)

Definition messageSecret_response (secret : value) : Response :=
  {| resp_secret := secret; resp_initialContent := None;
     resp_handler := "messageSecret" |}.

Definition privlyUrl_message (url : value) : TabMessage :=
  {| msg_privlyUrl := Some url; msg_pendingPost := false |}.

Definition cleared (g : Globals) : Globals :=
  set_postingApplicationStartingValue ""
    (set_postingApplicationTabId None (set_postingResultTab None g)).

Definition new_html (ext name : string) : CreateData :=
  {| cd_url := getURL ext ("privly-applications/" +:+ name +:+ "/new.html");
     cd_focused := true; cd_top := 0; cd_left := 0; cd_type := "normal" |}.

(** What the first lines of [postingHandler] leave in the storage. *)
Definition with_default_domain (storage : gmap string string)
  : gmap string string :=
  match storage !! "posting_content_server_url" with
  | Some _ => storage
  | None => <["posting_content_server_url" := "https://privlyalpha.org"]> storage
  end.

Definition selection_or_empty (info : Info) : string :=
  match info_selectionText info with
  | Some text => text
  | None => ""
  end.

Definition opened_urls (es : list Effect) : list string :=
  flat_map (fun e => match e with
                     | WindowsCreate createData _ => [cd_url createData]
                     | _ => []
                     end) es.

(** ** Concrete sessions, used to run the script *)

Definition extension_example : string := "pkokikcdlmpoabgpfkfhifpjbbnkhpfd".

Definition tab7 : Tab :=
  {| tab_id := 7; tab_url := "https://mail.example.org/compose" |}.

Definition tab9 : Tab :=
  {| tab_id := 9;
     tab_url := getURL extension_example "privly-applications/ZeroBin/new.html" |}.

Definition tab11 : Tab :=
  {| tab_id := 11; tab_url := "https://other.example.net/" |}.

(** Tab 7 waits for the link that the application in tab 9 writes from
    the draft "hello". *)
Definition pending_example : Globals :=
  {| messageSecret := VString "S";
     postingResultTab := Some tab7;
     postingApplicationTabId := Some 9;
     postingApplicationStartingValue := "hello";
     localStorage := ∅ |}.

Definition message (h : string) (d : value) : Request :=
  {| handler := VString h; data := d; ask := VUndefined |}.

Definition newPost : Request :=
  {| handler := VUndefined; data := VUndefined; ask := VString "newPost" |}.

Definition from_tab (t : Tab) : MessageSender := {| sender_tab := Some t |}.

Definition configured (domain : string) : Globals :=
  initial {["posting_content_server_url" := domain]}.

(** ** The events the browser delivers

    The last lines of the script register its functions with the
    browser: the three menus call [postingHandler], every message goes to
    [initializeMessagePathway], [receiveNewPrivlyUrl], [sendInitialContent]
    and the [newPost] listener, every closed tab to [tabRemoved], and a
    window asked for comes back to the callback of [postingHandler].  An
    event below is one call of one of these functions. *)

Inductive Event : Type :=
| Triggered (t : Trigger)
| WindowCreated (sourceTab : option Tab) (newWindow : Window)
| ToInitializeMessagePathway (request : Request) (sender : MessageSender)
| ToReceiveNewPrivlyUrl (request : Request) (sender : MessageSender)
| ToSendInitialContent (request : Request) (sender : MessageSender)
| TabRemoved (tabId : Z).

Definition deliver (extension_id : string) (e : Event) : Script unit :=
  match e with
  | Triggered t => fire extension_id t
  | WindowCreated sourceTab newWindow =>
      postingHandler_created sourceTab newWindow
  | ToInitializeMessagePathway request sender =>
      initializeMessagePathway request sender
  | ToReceiveNewPrivlyUrl request sender =>
      receiveNewPrivlyUrl request sender
  | ToSendInitialContent request sender =>
      sendInitialContent request sender
  | TabRemoved tabId => tabRemoved tabId
  end.

(** The events one after the other.  An exception ends the call that
    raised it and nothing else: the variables keep what the call had
    assigned, and the browser goes on with the next event. *)
Fixpoint deliver_all (extension_id : string) (es : list Event)
    (g : Globals) : Globals * list Effect :=
  match es with
  | [] => (g, [])
  | e :: es' =>
      let r := deliver extension_id e g in
      let rest := deliver_all extension_id es' (globals_after r) in
      (fst rest, (effects_of r ++ snd rest)%list)
  end.

Definition is_callback (e : Event) : bool :=
  match e with
  | WindowCreated _ _ => true
  | _ => false
  end.

(** The token of a [messageSecret] message that comes from a tab whose
    URL begins with the extension's scheme. *)
Definition registered_token (e : Event) : option value :=
  match e with
  | ToInitializeMessagePathway request sender =>
      match sender_tab sender with
      | Some tab =>
          if strict_equals (handler request) (VString "messageSecret")
             && String.prefix "chrome-extension://" (tab_url tab)
          then Some (data request)
          else None
      | None => None
      end
  | _ => None
  end.

(** The token of the last such message among [es], or [secret]. *)
Definition last_registered (es : list Event) (secret : value) : value :=
  fold_left (fun s e => default s (registered_token e)) es secret.

(** The window a trigger asks for when no application is bound. *)
Definition window_for (extension_id : string) (t : Trigger) : list Effect :=
  match t with
  | MenuClick menu info tab =>
      [WindowsCreate (new_html extension_id (menu_application menu)) tab]
  | RuntimeMessage request sender =>
      if strict_equals (ask request) (VString "newPost")
      then [WindowsCreate (new_html extension_id "ZeroBin")
              (sender_tab sender)]
      else []
  end.

(** The responses among the API calls. *)
Definition responses (es : list Effect) : list Response :=
  flat_map (fun e => match e with
                     | SendResponse response => [response]
                     | _ => []
                     end) es.

(** A message goes to every listener, in the order in which the script
    registered them. *)
Definition message_events (request : Request) (sender : MessageSender)
  : list Event :=
  [ToInitializeMessagePathway request sender;
   ToReceiveNewPrivlyUrl request sender;
   ToSendInitialContent request sender;
   Triggered (RuntimeMessage request sender)].

(** The host tab is bound only together with the application's tab. *)
Definition host_implies_application (g : Globals) : Prop :=
  postingResultTab g <> None -> postingApplicationTabId g <> None.

(** * Properties *)

(** ** Values and strings *)

Lemma strict_equals_string (a : value) (s : string) :
  strict_equals a (VString s) = true <-> a = VString s.
Proof.
  destruct a; simpl; split; try discriminate; intros H.
  - apply String.eqb_eq in H. now subst.
  - injection H as ->. apply String.eqb_refl.
Qed.

Lemma indexOf_from_range (pat s : string) (i : Z) :
  indexOf_from pat s i = -1 \/ i <= indexOf_from pat s i.
Proof.
  revert i. induction s as [|c s IH]; intros i; cbn [indexOf_from].
  - destruct (String.prefix pat ""); [right; lia | now left].
  - destruct (String.prefix pat (String c s)); [right; lia|].
    destruct (IH (i + 1)) as [E|E]; [now left | right; lia].
Qed.

Lemma indexOf_zero_prefix (s pat : string) :
  indexOf s pat = 0 <-> String.prefix pat s = true.
Proof.
  unfold indexOf. destruct s as [|c s]; cbn [indexOf_from].
  - destruct (String.prefix pat ""); split; (reflexivity || discriminate).
  - destruct (String.prefix pat (String c s)); split;
      try reflexivity; try discriminate.
    intros H. destruct (indexOf_from_range pat s (0 + 1)) as [E|E]; lia.
Qed.

Lemma tabId_equals_true (i : Z) (o : option Z) :
  tabId_equals i o = true <-> o = Some i.
Proof.
  destruct o as [j|]; simpl; [|split; discriminate].
  rewrite Z.eqb_eq. split; [now intros -> | now intros [= ->]].
Qed.

Lemma tabId_equals_false (i : Z) (o : option Z) :
  tabId_equals i o = false <-> o <> Some i.
Proof.
  rewrite <- tabId_equals_true. destruct (tabId_equals i o); split;
    congruence.
Qed.

(** ** Running a handler *)

Lemma bind_normal {A B : Type} (m : Script A) (k : A -> Script B)
    (g g1 : Globals) (a : A) (es1 : list Effect) :
  m g = (Normal a, g1, es1) ->
  bind m k g =
    (completed (k a g1), globals_after (k a g1),
     (es1 ++ effects_of (k a g1))%list).
Proof.
  intros H. unfold bind, completed, globals_after, effects_of. rewrite H.
  now destruct (k a g1) as [[r g2] es2].
Qed.

Lemma bind_throw {A B : Type} (m : Script A) (k : A -> Script B)
    (g g1 : Globals) (e : JSError) (es1 : list Effect) :
  m g = (Throw e, g1, es1) -> bind m k g = (Throw e, g1, es1).
Proof. intros H. unfold bind. now rewrite H. Qed.

Lemma bind_read {A B : Type} (f : Globals -> A) (k : A -> Script B)
    (g : Globals) :
  bind (read f) k g = k (f g) g.
Proof. unfold bind, read. now destruct (k (f g) g) as [[r g2] es2]. Qed.

Lemma bind_ret {A B : Type} (a : A) (k : A -> Script B) (g : Globals) :
  bind (ret a) k g = k a g.
Proof. unfold bind, ret. now destruct (k a g) as [[r g2] es2]. Qed.

(** Every setter leaves the other variables alone, so a record whose
    fields are read back from [g] is [g]. *)
Lemma globals_eta (g : Globals) :
  {| messageSecret := messageSecret g;
     postingResultTab := postingResultTab g;
     postingApplicationTabId := postingApplicationTabId g;
     postingApplicationStartingValue := postingApplicationStartingValue g;
     localStorage := localStorage g |} = g.
Proof. now destruct g. Qed.

Ltac run :=
  cbv [bind read assign call ret throw deref and_then
       completed globals_after effects_of]; cbn [app fst snd].

(** ** A trigger while a post is pending *)

Lemma postingHandler_pending (ext : string) (info : Info)
    (sourceTab : option Tab) (name : string) (g : Globals) :
  postingApplicationTabId g <> None ->
  postingHandler ext info sourceTab name g = (Normal tt, g, [warning]).
Proof.
  intros H. unfold postingHandler. rewrite bind_read.
  destruct (postingApplicationTabId g); [reflexivity | congruence].
Qed.

Lemma fire_pending (ext : string) (t : Trigger) (g : Globals) :
  postingApplicationTabId g <> None ->
  fire ext t g =
    (Normal tt, g, if invokes_postingHandler t then [warning] else []).
Proof.
  intros H. destruct t as [menu info tab | request sender]; simpl.
  - now apply postingHandler_pending.
  - unfold newPostListener.
    destruct (strict_equals (ask request) (VString "newPost")).
    + now apply postingHandler_pending.
    + reflexivity.
Qed.

(** C1.  While a posting application is bound ([postingApplicationTabId]
    is not [undefined]), every sequence of trigger events completes
    without an exception and leaves all the variables of the script as
    they were, [postingResultTab] and [postingApplicationTabId] among
    them; all it does is show the warning notification, once for each
    trigger that reaches [postingHandler]. *)
Theorem pending_triggers_change_nothing (ext : string) (ts : list Trigger)
    (g : Globals) :
  postingApplicationTabId g <> None ->
  fire_all ext ts g =
    (Normal tt, g,
     List.map (fun _ => warning) (List.filter invokes_postingHandler ts)).
Proof.
  intros H. induction ts as [|t ts IH]; [reflexivity|].
  cbn [fire_all]. rewrite (bind_normal _ _ _ _ _ _ (fire_pending ext t g H)).
  rewrite IH. cbn [completed globals_after effects_of fst snd List.filter].
  now destruct (invokes_postingHandler t).
Qed.

Lemma pending_triggers_change_nothing_witness :
  fire_all extension_example
    [MenuClick PostWithPlainPost (OnClickData (Some "again")) (Some tab11);
     RuntimeMessage (message "privlyUrl" VNull) (from_tab tab11);
     RuntimeMessage newPost (from_tab tab7)]
    pending_example
  = (Normal tt, pending_example, [warning; warning]).
Proof.
  apply (pending_triggers_change_nothing extension_example
           [MenuClick PostWithPlainPost (OnClickData (Some "again")) (Some tab11);
            RuntimeMessage (message "privlyUrl" VNull) (from_tab tab11);
            RuntimeMessage newPost (from_tab tab7)]
           pending_example).
  discriminate.
Defined.

(** ** Registration of the secret *)

Lemma secret_registered (request : Request) (sender : MessageSender)
    (tab : Tab) (g : Globals) :
  handler request = VString "messageSecret" ->
  sender_tab sender = Some tab ->
  String.prefix "chrome-extension://" (tab_url tab) = true ->
  initializeMessagePathway request sender g =
    (Normal tt, set_messageSecret (data request) g,
     [SendResponse (messageSecret_response (data request))]).
Proof.
  intros Hh Ht Hp. apply indexOf_zero_prefix in Hp.
  unfold initializeMessagePathway. rewrite Hh, Ht. run.
  rewrite Hp. reflexivity.
Qed.

(** C2, as the code has it.  Every [messageSecret] message from a tab of
    the extension stores its token and echoes it, whatever was stored
    before: after two registrations the secret is the second token, and
    the second reply carries the second token. *)
Theorem second_registration_replaces_secret (r1 r2 : Request)
    (s1 s2 : MessageSender) (t1 t2 : Tab) (g : Globals) :
  handler r1 = VString "messageSecret" ->
  handler r2 = VString "messageSecret" ->
  sender_tab s1 = Some t1 -> sender_tab s2 = Some t2 ->
  String.prefix "chrome-extension://" (tab_url t1) = true ->
  String.prefix "chrome-extension://" (tab_url t2) = true ->
  (initializeMessagePathway r1 s1 ;;; initializeMessagePathway r2 s2) g =
    (Normal tt, set_messageSecret (data r2) g,
     [SendResponse (messageSecret_response (data r1));
      SendResponse (messageSecret_response (data r2))]).
Proof.
  intros H1 H2 T1 T2 P1 P2.
  rewrite (bind_normal _ _ _ _ _ _ (secret_registered r1 s1 t1 g H1 T1 P1)).
  rewrite (secret_registered r2 s2 t2 _ H2 T2 P2). reflexivity.
Qed.

Lemma second_registration_replaces_secret_witness :
  (initializeMessagePathway (message "messageSecret" (VString "first"))
     (from_tab tab9) ;;;
   initializeMessagePathway (message "messageSecret" (VString "second"))
     (from_tab tab9)) (initial ∅) =
    (Normal tt, set_messageSecret (VString "second") (initial ∅),
     [SendResponse (messageSecret_response (VString "first"));
      SendResponse (messageSecret_response (VString "second"))]).
Proof.
  apply (second_registration_replaces_secret
           (message "messageSecret" (VString "first"))
           (message "messageSecret" (VString "second"))
           (from_tab tab9) (from_tab tab9) tab9 tab9 (initial ∅));
    reflexivity.
Defined.

(** C2, as the specification has it, fails: registering "first" and then
    "second" leaves "second", not "first", as the secret. *)
Lemma first_secret_not_kept :
  let after :=
    globals_after
      ((initializeMessagePathway (message "messageSecret" (VString "first"))
          (from_tab tab9) ;;;
        initializeMessagePathway (message "messageSecret" (VString "second"))
          (from_tab tab9)) (initial ∅)) in
  messageSecret after = VString "second" /\
  messageSecret after <> VString "first".
Proof. vm_compute. split; [reflexivity | discriminate]. Qed.

(** C8.  A [messageSecret] message from a tab whose URL does not begin
    with [chrome-extension://] is ignored by the registration handler: it
    completes, changes no variable (the stored secret in particular) and
    never calls [sendResponse]. *)
Theorem foreign_secret_ignored (request : Request) (sender : MessageSender)
    (tab : Tab) (g : Globals) :
  handler request = VString "messageSecret" ->
  sender_tab sender = Some tab ->
  String.prefix "chrome-extension://" (tab_url tab) = false ->
  initializeMessagePathway request sender g = (Normal tt, g, []).
Proof.
  intros Hh Ht Hp. unfold initializeMessagePathway, from_posting_application.
  rewrite Hh, Ht. run.
  destruct (Z.eqb_spec (indexOf (tab_url tab) "chrome-extension://") 0)
    as [E|E]; [|reflexivity].
  apply indexOf_zero_prefix in E. congruence.
Qed.

Lemma foreign_secret_ignored_witness :
  initializeMessagePathway (message "messageSecret" (VString "forged"))
    (from_tab tab11) pending_example = (Normal tt, pending_example, []).
Proof.
  apply (foreign_secret_ignored (message "messageSecret" (VString "forged"))
           (from_tab tab11) tab11 pending_example); reflexivity.
Defined.

(** ** Relay of the link *)

Lemma relay (request : Request) (sender : MessageSender) (host app : Tab)
    (g : Globals) :
  handler request = VString "privlyUrl" ->
  postingResultTab g = Some host ->
  sender_tab sender = Some app ->
  receiveNewPrivlyUrl request sender g =
    (Normal tt,
     set_postingResultTab None (set_postingApplicationTabId None g),
     [TabsUpdate (tab_id host) true;
      TabsSendMessage (tab_id host) (privlyUrl_message (data request));
      TabsRemove (tab_id app)]).
Proof.
  intros Hh Hr Hs. unfold receiveNewPrivlyUrl. rewrite bind_read, Hh, Hr, Hs.
  reflexivity.
Qed.

Lemma relay_keeps_starting_value (request : Request) (sender : MessageSender)
    (g : Globals) :
  postingApplicationStartingValue
    (globals_after (receiveNewPrivlyUrl request sender g))
  = postingApplicationStartingValue g.
Proof.
  unfold receiveNewPrivlyUrl. rewrite bind_read.
  destruct (strict_equals (handler request) (VString "privlyUrl")
            && bool_decide (postingResultTab g <> None)); [|reflexivity].
  destruct (postingResultTab g) as [host|], (sender_tab sender) as [app|];
    reflexivity.
Qed.

(** C3.  The application in tab 9 delivers its link while tab 7 waits for
    it: the link is relayed and both identifiers are cleared, but
    [postingApplicationStartingValue] still holds the draft "hello"; it
    is not reset to the empty string as [tabRemoved] resets it. *)
Theorem relay_leaves_draft :
  receiveNewPrivlyUrl (message "privlyUrl" (VString "https://x/p/abc"))
    (from_tab tab9) pending_example
  = (Normal tt,
     {| messageSecret := VString "S";
        postingResultTab := None;
        postingApplicationTabId := None;
        postingApplicationStartingValue := "hello";
        localStorage := ∅ |},
     [TabsUpdate 7 true;
      TabsSendMessage 7 (privlyUrl_message (VString "https://x/p/abc"));
      TabsRemove 9]).
Proof.
  rewrite (relay _ _ tab7 tab9) by reflexivity. reflexivity.
Qed.

(** C7.  While no host tab is bound ([postingResultTab] is [undefined]),
    [receiveNewPrivlyUrl] ignores every message, a [privlyUrl] message
    included: it completes, makes no API call (no tab update, no message,
    no tab removal) and leaves every variable as it was. *)
Theorem result_without_host_ignored (request : Request)
    (sender : MessageSender) (g : Globals) :
  postingResultTab g = None ->
  receiveNewPrivlyUrl request sender g = (Normal tt, g, []).
Proof.
  intros H. unfold receiveNewPrivlyUrl. rewrite bind_read, H.
  rewrite andb_false_r. reflexivity.
Qed.

Lemma result_without_host_ignored_witness :
  receiveNewPrivlyUrl (message "privlyUrl" (VString "https://x/p/abc"))
    (from_tab tab9) (initial ∅) = (Normal tt, initial ∅, []).
Proof.
  apply (result_without_host_ignored
           (message "privlyUrl" (VString "https://x/p/abc"))
           (from_tab tab9) (initial ∅)).
  reflexivity.
Defined.

(** ** Closure of a tab *)

Lemma cleared_idle (g : Globals) :
  idle (cleared g) /\ postingApplicationStartingValue (cleared g) = "".
Proof. repeat split. Qed.

(** C5.  With both identifiers bound, the removal of the application's
    tab or of the host tab completes and leaves the session idle: both
    identifiers [undefined] and the starting value the empty string, the
    secret and the storage as they were.  When the removed tab is the
    application's, the host tab is sent [{pendingPost: false}] and
    nothing else happens; when it is the host tab (and not also the
    application's), the application's tab is removed and nothing else
    happens. *)
Theorem closure_clears_session (tabId : Z) (host : Tab) (app : Z)
    (g : Globals) :
  postingResultTab g = Some host ->
  postingApplicationTabId g = Some app ->
  tabId = app \/ tabId = tab_id host ->
  completed (tabRemoved tabId g) = Normal tt /\
  globals_after (tabRemoved tabId g) = cleared g /\
  idle (globals_after (tabRemoved tabId g)) /\
  postingApplicationStartingValue (globals_after (tabRemoved tabId g)) = "" /\
  (tabId = app ->
   effects_of (tabRemoved tabId g) =
     [TabsSendMessage (tab_id host)
        {| msg_privlyUrl := None; msg_pendingPost := false |}]) /\
  (tabId = tab_id host -> tabId <> app ->
   effects_of (tabRemoved tabId g) = [TabsRemove app]).
Proof.
  intros Hr Ha Hc. unfold tabRemoved. rewrite !bind_read, Hr, Ha.
  destruct (Z.eqb_spec tabId app) as [E|E].
  - repeat split; intros; congruence.
  - destruct Hc as [Hc|Hc]; [congruence|].
    destruct (Z.eqb_spec tabId (tab_id host)) as [E'|E']; [|congruence].
    repeat split; intros; congruence.
Qed.

Lemma closure_clears_session_witness :
  globals_after (tabRemoved 7 pending_example) = cleared pending_example /\
  effects_of (tabRemoved 7 pending_example) = [TabsRemove 9].
Proof.
  destruct (closure_clears_session 7 tab7 9 pending_example)
    as (_ & Hg & _ & _ & _ & He);
    [reflexivity | reflexivity | right; reflexivity |].
  split; [exact Hg | apply He; [reflexivity | discriminate]].
Defined.

(** ** Requests for the initial content *)

Lemma not_from_posting_application (request : Request)
    (sender : MessageSender) (tab : Tab) (g : Globals) :
  sender_tab sender = Some tab ->
  postingApplicationTabId g <> Some (tab_id tab) ->
  from_posting_application request sender g = (Normal false, g, []).
Proof.
  intros Ht Hne. apply tabId_equals_false in Hne.
  unfold from_posting_application. rewrite Ht.
  destruct (strict_equals (handler request) (VString "initialContent"));
    run; [now rewrite Hne | reflexivity].
Qed.

Lemma empty_content_served (request : Request) (sender : MessageSender)
    (tab : Tab) (g : Globals) :
  handler request = VString "initialContent" ->
  sender_tab sender = Some tab ->
  postingApplicationTabId g <> Some (tab_id tab) ->
  sendInitialContent request sender g =
    (Normal tt, g,
     [SendResponse (initialContent_response (messageSecret g) "")]).
Proof.
  intros Hh Ht Hne. unfold sendInitialContent.
  rewrite (bind_normal _ _ _ _ _ _
             (not_from_posting_application request sender tab g Ht Hne)).
  rewrite Hh. reflexivity.
Qed.

Lemma pathway_silent (request : Request) (sender : MessageSender)
    (tab : Tab) (g : Globals) :
  handler request = VString "initialContent" ->
  sender_tab sender = Some tab ->
  postingApplicationTabId g <> Some (tab_id tab) ->
  initializeMessagePathway request sender g = (Normal tt, g, []).
Proof.
  intros Hh Ht Hne. unfold initializeMessagePathway.
  rewrite Hh.
  change (strict_equals (VString "initialContent") (VString "messageSecret"))
    with false.
  cbn [and_then]. rewrite bind_ret.
  rewrite (bind_normal _ _ _ _ _ _
             (not_from_posting_application request sender tab g Ht Hne)).
  reflexivity.
Qed.

(** C6.  An [initialContent] request from a tab whose id is not the
    value of [postingApplicationTabId] is answered by
    [sendInitialContent] with the stored secret and [initialContent: ""],
    and [initializeMessagePathway] does not answer it; no variable
    changes.  Whatever draft is pending, the answer is the same: replacing
    [postingApplicationStartingValue] by any other string changes no call
    of [sendResponse] by either listener. *)
Theorem unbound_sender_gets_empty_content (request : Request)
    (sender : MessageSender) (tab : Tab) (g : Globals) :
  handler request = VString "initialContent" ->
  sender_tab sender = Some tab ->
  postingApplicationTabId g <> Some (tab_id tab) ->
  sendInitialContent request sender g =
    (Normal tt, g,
     [SendResponse
        {| resp_secret := messageSecret g;
           resp_initialContent := Some "";
           resp_handler := "initialContent" |}]) /\
  initializeMessagePathway request sender g = (Normal tt, g, []) /\
  forall draft : string,
    let g' := set_postingApplicationStartingValue draft g in
    effects_of (sendInitialContent request sender g') =
      effects_of (sendInitialContent request sender g) /\
    effects_of (initializeMessagePathway request sender g') =
      effects_of (initializeMessagePathway request sender g).
Proof.
  intros Hh Ht Hne. split; [|split].
  - now apply (empty_content_served request sender tab).
  - now apply (pathway_silent request sender tab).
  - intros draft g'.
    rewrite (empty_content_served request sender tab g' Hh Ht Hne).
    rewrite (empty_content_served request sender tab g Hh Ht Hne).
    rewrite (pathway_silent request sender tab g' Hh Ht Hne).
    rewrite (pathway_silent request sender tab g Hh Ht Hne).
    split; reflexivity.
Qed.

Lemma unbound_sender_gets_empty_content_witness :
  sendInitialContent (message "initialContent" VUndefined) (from_tab tab11)
    pending_example =
    (Normal tt, pending_example,
     [SendResponse
        {| resp_secret := VString "S";
           resp_initialContent := Some "";
           resp_handler := "initialContent" |}]).
Proof.
  apply (unbound_sender_gets_empty_content
           (message "initialContent" VUndefined) (from_tab tab11) tab11
           pending_example); [reflexivity | reflexivity | discriminate].
Defined.

(** ** Opening the posting application *)

Lemma postingHandler_opens (ext : string) (info : Info)
    (sourceTab : option Tab) (name : string) (g : Globals) :
  postingApplicationTabId g = None ->
  postingHandler ext info sourceTab name g =
    (Normal tt,
     set_postingApplicationStartingValue (selection_or_empty info)
       (set_localStorage (with_default_domain (localStorage g)) g),
     [WindowsCreate (new_html ext name) sourceTab]).
Proof.
  intros H. unfold postingHandler, with_default_domain.
  rewrite bind_read, H, bind_read.
  destruct (localStorage g !! "posting_content_server_url") as [domain|].
  - rewrite bind_ret. unfold set_localStorage at 1.
    rewrite globals_eta. reflexivity.
  - reflexivity.
Qed.

Lemma created_binds (sourceTab : option Tab) (host tab : Tab)
    (others : list Tab) (g : Globals) :
  sourceTab = Some host ->
  postingHandler_created sourceTab {| win_tabs := tab :: others |} g =
    (Normal tt,
     set_postingResultTab (Some host)
       (set_postingApplicationTabId (Some (tab_id tab)) g),
     [TabsSendMessage (tab_id host) (pendingPost true)]).
Proof. intros ->. reflexivity. Qed.

Lemma created_keeps_starting_value (sourceTab : option Tab)
    (newWindow : Window) (g : Globals) :
  postingApplicationStartingValue
    (globals_after (postingHandler_created sourceTab newWindow g))
  = postingApplicationStartingValue g.
Proof.
  destruct newWindow as [[|tab others]]; [reflexivity|].
  destruct sourceTab; reflexivity.
Qed.

(** C4, as the specification has it, fails.  With the base URL
    configured as "https://example.org" and with it left unset (so that
    the fallback "https://privlyalpha.org" is stored), [postingHandler]
    opens the same location, inside the extension; neither base URL is
    the beginning of it. *)
Lemma target_location_ignores_base_url :
  let click := postingHandler extension_example (OnClickData None)
                 (Some tab7) "ZeroBin" in
  let location :=
    "chrome-extension://pkokikcdlmpoabgpfkfhifpjbbnkhpfd/privly-applications/ZeroBin/new.html" in
  localStorage (globals_after (click (configured "https://example.org")))
    !! "posting_content_server_url" = Some "https://example.org" /\
  opened_urls (effects_of (click (configured "https://example.org")))
    = [location] /\
  localStorage (globals_after (click (initial ∅)))
    !! "posting_content_server_url" = Some "https://privlyalpha.org" /\
  opened_urls (effects_of (click (initial ∅))) = [location] /\
  String.prefix "https://example.org" location = false /\
  String.prefix "https://privlyalpha.org" location = false.
Proof. vm_compute. repeat split. Qed.

(** C4, as the code has it.  When no posting application is bound,
    [postingHandler] opens one window, focused, at the top left, whose
    location is the extension's own URL for
    [privly-applications/<name>/new.html].  The persisted
    [posting_content_server_url] is read, and set to
    "https://privlyalpha.org" when it was unset, but the location does
    not depend on it: any other storage gives the same window. *)
Theorem target_location_within_extension (ext : string) (info : Info)
    (sourceTab : option Tab) (name : string) (g : Globals) :
  postingApplicationTabId g = None ->
  completed (postingHandler ext info sourceTab name g) = Normal tt /\
  effects_of (postingHandler ext info sourceTab name g) =
    [WindowsCreate
       {| cd_url :=
            "chrome-extension://" +:+ ext +:+ "/" +:+
            ("privly-applications/" +:+ name +:+ "/new.html");
          cd_focused := true; cd_top := 0; cd_left := 0;
          cd_type := "normal" |}
       sourceTab] /\
  localStorage (globals_after (postingHandler ext info sourceTab name g)) =
    with_default_domain (localStorage g) /\
  forall storage : gmap string string,
    effects_of (postingHandler ext info sourceTab name
                  (set_localStorage storage g)) =
    effects_of (postingHandler ext info sourceTab name g).
Proof.
  intros H. rewrite (postingHandler_opens ext info sourceTab name g H).
  repeat split. intros storage.
  now rewrite (postingHandler_opens ext info sourceTab name
                 (set_localStorage storage g) H).
Qed.

Lemma target_location_within_extension_witness :
  effects_of (postingHandler extension_example (OnClickData None)
                (Some tab7) "PlainPost" (configured "https://example.org")) =
    [WindowsCreate
       {| cd_url :=
            "chrome-extension://pkokikcdlmpoabgpfkfhifpjbbnkhpfd/privly-applications/PlainPost/new.html";
          cd_focused := true; cd_top := 0; cd_left := 0;
          cd_type := "normal" |}
       (Some tab7)].
Proof.
  apply (target_location_within_extension extension_example
           (OnClickData None) (Some tab7) "PlainPost"
           (configured "https://example.org")).
  reflexivity.
Defined.

(** C9.  The session being idle, a trigger from tab 7 with the selected
    text "hello" for the application ZeroBin completes and asks for a
    window on the ZeroBin application; when the window is there, its
    first tab being [tab], the callback completes and leaves
    [postingResultTab] the tab 7, [postingApplicationTabId] the id of
    [tab], [postingApplicationStartingValue] "hello", and has sent tab 7
    the message [{pendingPost: true}]. *)
Theorem scenario_trigger_from_tab_7 (ext url7 : string) (tab : Tab)
    (others : list Tab) (g : Globals) :
  idle g ->
  let host := {| tab_id := 7; tab_url := url7 |} in
  let triggered :=
    postingHandler ext (OnClickData (Some "hello")) (Some host) "ZeroBin" g in
  let opened :=
    postingHandler_created (Some host) {| win_tabs := tab :: others |}
      (globals_after triggered) in
  completed triggered = Normal tt /\
  effects_of triggered = [WindowsCreate (new_html ext "ZeroBin") (Some host)] /\
  completed opened = Normal tt /\
  postingResultTab (globals_after opened) = Some host /\
  postingApplicationTabId (globals_after opened) = Some (tab_id tab) /\
  postingApplicationStartingValue (globals_after opened) = "hello" /\
  effects_of opened = [TabsSendMessage 7 {| msg_privlyUrl := None; msg_pendingPost := true |}].
Proof.
  intros [_ Happ] host triggered opened. subst triggered opened.
  rewrite (postingHandler_opens ext _ (Some host) "ZeroBin" g Happ).
  cbn [globals_after fst snd].
  rewrite (created_binds (Some host) host tab others _ eq_refl).
  repeat split.
Qed.

Lemma scenario_trigger_from_tab_7_witness :
  let opened :=
    postingHandler_created (Some tab7) {| win_tabs := [tab9] |}
      (globals_after
         (postingHandler extension_example (OnClickData (Some "hello"))
            (Some tab7) "ZeroBin" (initial ∅))) in
  postingResultTab (globals_after opened) = Some tab7 /\
  postingApplicationTabId (globals_after opened) = Some 9 /\
  postingApplicationStartingValue (globals_after opened) = "hello" /\
  effects_of opened = [TabsSendMessage 7 {| msg_privlyUrl := None; msg_pendingPost := true |}].
Proof.
  destruct (scenario_trigger_from_tab_7 extension_example
              "https://mail.example.org/compose" tab9 [] (initial ∅))
    as (_ & _ & _ & Hhost & Happ & Hdraft & Hsent); [split; reflexivity|].
  exact (conj Hhost (conj Happ (conj Hdraft Hsent))).
Defined.

(** C10.  A message [{ask: "newPost"}] calls [postingHandler] with the
    number 0 for [info], which has no [selectionText].  When no posting
    application is bound it completes, leaves
    [postingApplicationStartingValue] the empty string, and asks for one
    window, on the ZeroBin application, for the sender's tab; the callback
    of that window leaves the starting value empty.  In every state, a
    window the listener asks for is on the ZeroBin application, and the
    starting value is then empty. *)
Theorem newPost_opens_ZeroBin_without_content (ext : string)
    (request : Request) (sender : MessageSender) (g : Globals) :
  ask request = VString "newPost" ->
  let triggered := newPostListener ext request sender g in
  (postingApplicationTabId g = None ->
   completed triggered = Normal tt /\
   postingApplicationStartingValue (globals_after triggered) = "" /\
   effects_of triggered =
     [WindowsCreate (new_html ext "ZeroBin") (sender_tab sender)] /\
   forall newWindow : Window,
     postingApplicationStartingValue
       (globals_after
          (postingHandler_created (sender_tab sender) newWindow
             (globals_after triggered))) = "") /\
  (forall (createData : CreateData) (sourceTab : option Tab),
     List.In (WindowsCreate createData sourceTab) (effects_of triggered) ->
     createData = new_html ext "ZeroBin" /\
     postingApplicationStartingValue (globals_after triggered) = "").
Proof.
  intros Hask triggered. subst triggered. unfold newPostListener.
  rewrite Hask. change (strict_equals (VString "newPost") (VString "newPost"))
    with true. cbv iota.
  destruct (postingApplicationTabId g) as [app|] eqn:Happ.
  - split; [discriminate|].
    rewrite postingHandler_pending by congruence.
    intros createData sourceTab [E|[]]. discriminate E.
  - rewrite (postingHandler_opens ext _ _ "ZeroBin" g Happ).
    split.
    + intros _. repeat split. intros newWindow.
      now rewrite created_keeps_starting_value.
    + intros createData sourceTab [E|[]]. injection E as <- _.
      split; reflexivity.
Qed.

Lemma newPost_opens_ZeroBin_without_content_witness :
  effects_of (newPostListener extension_example newPost (from_tab tab7)
                (initial ∅)) =
    [WindowsCreate (new_html extension_example "ZeroBin") (Some tab7)].
Proof.
  destruct (newPost_opens_ZeroBin_without_content extension_example newPost
              (from_tab tab7) (initial ∅)) as [H _]; [reflexivity|].
  destruct H as (_ & _ & H & _); [reflexivity|]. exact H.
Defined.

(** * Further properties of the script *)

(** ** Closures that do not concern the session *)

Lemma tabRemoved_bound (tabId : Z) (host : Tab) (app : Z) (g : Globals) :
  postingResultTab g = Some host ->
  postingApplicationTabId g = Some app ->
  tabRemoved tabId g =
    if Z.eqb tabId app
    then (Normal tt, cleared g,
          [TabsSendMessage (tab_id host) (pendingPost false)])
    else if Z.eqb tabId (tab_id host)
         then (Normal tt, cleared g, [TabsRemove app])
         else (Normal tt, g, []).
Proof.
  intros Hr Ha. unfold tabRemoved. rewrite !bind_read, Hr, Ha.
  destruct (Z.eqb tabId app); [reflexivity|].
  destruct (Z.eqb tabId (tab_id host)); reflexivity.
Qed.

Lemma tabRemoved_unbound (tabId : Z) (g : Globals) :
  postingResultTab g = None \/ postingApplicationTabId g = None ->
  tabRemoved tabId g = (Normal tt, g, []).
Proof.
  intros H. unfold tabRemoved. rewrite !bind_read.
  destruct (postingResultTab g), (postingApplicationTabId g);
    try reflexivity.
  destruct H; discriminate.
Qed.

(** X1.  [tabRemoved] ignores the closure of a tab when one of the two
    identifiers is [undefined], and when both are bound but the closed
    tab is neither the application's nor the host: it completes, calls
    nothing and leaves every variable as it was. *)
Theorem unrelated_closure_ignored (tabId : Z) (g : Globals) :
  (postingResultTab g = None \/ postingApplicationTabId g = None \/
   (postingApplicationTabId g <> Some tabId /\
    tab_id <$> postingResultTab g <> Some tabId)) ->
  tabRemoved tabId g = (Normal tt, g, []).
Proof.
  intros [H|[H|[Ha Hr]]];
    [apply tabRemoved_unbound; now left
    |apply tabRemoved_unbound; now right|].
  destruct (postingResultTab g) as [host|] eqn:Er;
    [|apply tabRemoved_unbound; now left].
  destruct (postingApplicationTabId g) as [app|] eqn:Eapp;
    [|apply tabRemoved_unbound; now right].
  rewrite (tabRemoved_bound tabId host app g Er Eapp).
  destruct (Z.eqb_spec tabId app) as [->|_]; [congruence|].
  destruct (Z.eqb_spec tabId (tab_id host)) as [E|_]; [|reflexivity].
  exfalso. apply Hr. simpl. now rewrite E.
Qed.

Lemma unrelated_closure_ignored_witness :
  tabRemoved 11 pending_example = (Normal tt, pending_example, []).
Proof.
  apply (unrelated_closure_ignored 11 pending_example).
  right; right. split; discriminate.
Defined.

(** X2.  Reporting the same closure twice is the same as reporting it
    once: whatever the first call of [tabRemoved] did, the second changes
    nothing and calls nothing. *)
Theorem closure_reported_twice (tabId : Z) (g : Globals) :
  (tabRemoved tabId ;;; tabRemoved tabId) g = tabRemoved tabId g.
Proof.
  destruct (postingResultTab g) as [host|] eqn:Er.
  2: { assert (H : tabRemoved tabId g = (Normal tt, g, []))
         by (apply tabRemoved_unbound; now left).
       rewrite (bind_normal _ _ _ _ _ _ H), H. reflexivity. }
  destruct (postingApplicationTabId g) as [app|] eqn:Eapp.
  2: { assert (H : tabRemoved tabId g = (Normal tt, g, []))
         by (apply tabRemoved_unbound; now right).
       rewrite (bind_normal _ _ _ _ _ _ H), H. reflexivity. }
  pose proof (tabRemoved_bound tabId host app g Er Eapp) as H.
  assert (Hc : tabRemoved tabId (cleared g) = (Normal tt, cleared g, []))
    by (apply tabRemoved_unbound; now left).
  destruct (Z.eqb tabId app);
    [|destruct (Z.eqb tabId (tab_id host))];
    rewrite (bind_normal _ _ _ _ _ _ H), ?Hc, H; reflexivity.
Qed.

(** ** Relay of the link, continued *)

(** X3.  A relay asks the browser to remove the sender's tab; when the
    browser then reports that closure, or any other, [tabRemoved] ignores
    it, the session being unbound already: the host tab gets no second
    message and the starting value is not reset. *)
Theorem closure_after_relay_ignored (request : Request)
    (sender : MessageSender) (host app : Tab) (tabId : Z) (g : Globals) :
  handler request = VString "privlyUrl" ->
  postingResultTab g = Some host ->
  sender_tab sender = Some app ->
  (receiveNewPrivlyUrl request sender ;;; tabRemoved tabId) g =
    receiveNewPrivlyUrl request sender g /\
  postingApplicationStartingValue
    (globals_after
       ((receiveNewPrivlyUrl request sender ;;; tabRemoved tabId) g)) =
    postingApplicationStartingValue g.
Proof.
  intros Hh Hr Hs.
  pose proof (relay request sender host app g Hh Hr Hs) as H.
  rewrite (bind_normal _ _ _ _ _ _ H), H.
  rewrite tabRemoved_unbound by (now left). split; reflexivity.
Qed.

Lemma closure_after_relay_ignored_witness :
  (receiveNewPrivlyUrl (message "privlyUrl" (VString "https://x/p/abc"))
     (from_tab tab9) ;;; tabRemoved 9) pending_example =
  receiveNewPrivlyUrl (message "privlyUrl" (VString "https://x/p/abc"))
    (from_tab tab9) pending_example.
Proof.
  apply (closure_after_relay_ignored
           (message "privlyUrl" (VString "https://x/p/abc"))
           (from_tab tab9) tab7 tab9 9 pending_example); reflexivity.
Defined.

(** X4.  A [privlyUrl] message whose sender has no tab, a host tab being
    bound: the host tab is selected and sent the link, then reading
    [sender.tab.id] raises a [TypeError]; no tab is removed and the two
    identifiers stay bound, so the session is still pending. *)
Theorem relay_from_tabless_sender (request : Request)
    (sender : MessageSender) (host : Tab) (g : Globals) :
  handler request = VString "privlyUrl" ->
  postingResultTab g = Some host ->
  sender_tab sender = None ->
  receiveNewPrivlyUrl request sender g =
    (Throw (TypeError "sender.tab"), g,
     [TabsUpdate (tab_id host) true;
      TabsSendMessage (tab_id host) (privlyUrl_message (data request))]).
Proof.
  intros Hh Hr Hs. unfold receiveNewPrivlyUrl.
  rewrite bind_read, Hh, Hr, Hs. reflexivity.
Qed.

Lemma relay_from_tabless_sender_witness :
  receiveNewPrivlyUrl (message "privlyUrl" (VString "https://x/p/abc"))
    {| sender_tab := None |} pending_example =
    (Throw (TypeError "sender.tab"), pending_example,
     [TabsUpdate 7 true;
      TabsSendMessage 7 (privlyUrl_message (VString "https://x/p/abc"))]).
Proof.
  apply (relay_from_tabless_sender
           (message "privlyUrl" (VString "https://x/p/abc"))
           {| sender_tab := None |} tab7 pending_example); reflexivity.
Defined.

(** X5.  [receiveNewPrivlyUrl] does not look at who sends the link.  A
    [privlyUrl] message from a tab other than the bound application's is
    relayed to the host all the same; the tab that is removed is the
    sender's, the application's tab is not removed, and both identifiers
    are forgotten. *)
Theorem relay_from_any_tab (request : Request) (sender : MessageSender)
    (host other : Tab) (app : Z) (g : Globals) :
  handler request = VString "privlyUrl" ->
  postingResultTab g = Some host ->
  postingApplicationTabId g = Some app ->
  sender_tab sender = Some other ->
  tab_id other <> app ->
  let r := receiveNewPrivlyUrl request sender g in
  completed r = Normal tt /\
  effects_of r =
    [TabsUpdate (tab_id host) true;
     TabsSendMessage (tab_id host) (privlyUrl_message (data request));
     TabsRemove (tab_id other)] /\
  ~ List.In (TabsRemove app) (effects_of r) /\
  idle (globals_after r).
Proof.
  intros Hh Hr Ha Hs Hne r. subst r.
  rewrite (relay request sender host other g Hh Hr Hs).
  repeat split.
  intros [E|[E|[E|[]]]]; try discriminate E. injection E as E. congruence.
Qed.

Lemma relay_from_any_tab_witness :
  effects_of
    (receiveNewPrivlyUrl (message "privlyUrl" (VString "https://evil/"))
       (from_tab tab11) pending_example) =
    [TabsUpdate 7 true;
     TabsSendMessage 7 (privlyUrl_message (VString "https://evil/"));
     TabsRemove 11].
Proof.
  destruct (relay_from_any_tab
              (message "privlyUrl" (VString "https://evil/"))
              (from_tab tab11) tab7 tab11 9 pending_example)
    as (_ & H & _);
    [reflexivity | reflexivity | reflexivity | reflexivity | discriminate |].
  exact H.
Defined.

(** ** Case analysis of a handler *)

Ltac unfold_script :=
  cbv [deliver fire newPostListener postingHandler postingHandler_created
       receiveNewPrivlyUrl initializeMessagePathway sendInitialContent
       from_posting_application tabRemoved clear_session
       bind read assign call ret throw deref and_then
       completed globals_after effects_of fst snd].

(** A test of the script that no other test has to be decided for. *)
Ltac innermost_test t :=
  lazymatch t with
  | context [if _ then _ else _] => fail
  | context [match _ with _ => _ end] => fail
  | _ => idtac
  end.

(** Case analysis on an innermost test, again and again. *)
Ltac split_script :=
  repeat (match goal with
          | |- context [match ?test with _ => _ end] =>
              innermost_test test; destruct test eqn:?
          end; cbv beta iota zeta).

(** X6.  Whatever function is called with whatever arguments, every
    response it passes to [sendResponse] carries in [secret] the value
    [messageSecret] has when the function ends. *)
Theorem responses_carry_stored_secret (ext : string) (e : Event)
    (g : Globals) :
  Forall (fun response =>
            resp_secret response =
              messageSecret (globals_after (deliver ext e g)))
    (responses (effects_of (deliver ext e g))).
Proof.
  destruct e as [[menu info tab|request sender]| | | | |];
    unfold_script; split_script; cbn; repeat constructor.
Qed.

(** ** Requests for the initial content, continued *)

Lemma strict_equals_other (a : value) (s : string) :
  a <> VString s -> strict_equals a (VString s) = false.
Proof.
  intros H. destruct (strict_equals a (VString s)) eqn:E; [|reflexivity].
  apply strict_equals_string in E. contradiction.
Qed.

(** X7.  An [initialContent] request from the tab bound as the posting
    application is answered with the stored secret and the pending
    starting value, and it is answered twice, once by
    [initializeMessagePathway] and once by [sendInitialContent], with the
    same response; no variable changes. *)
Theorem bound_application_gets_draft (request : Request)
    (sender : MessageSender) (tab : Tab) (g : Globals) :
  handler request = VString "initialContent" ->
  sender_tab sender = Some tab ->
  postingApplicationTabId g = Some (tab_id tab) ->
  let response :=
    {| resp_secret := messageSecret g;
       resp_initialContent := Some (postingApplicationStartingValue g);
       resp_handler := "initialContent" |} in
  initializeMessagePathway request sender g =
    (Normal tt, g, [SendResponse response]) /\
  sendInitialContent request sender g =
    (Normal tt, g, [SendResponse response]).
Proof.
  intros Hh Ht Ha response. subst response.
  unfold_script. rewrite Hh, Ht.
  change (strict_equals (VString "initialContent") (VString "messageSecret"))
    with false.
  change (strict_equals (VString "initialContent") (VString "initialContent"))
    with true.
  cbv beta iota. unfold tabId_equals. rewrite Ha, Z.eqb_refl.
  split; reflexivity.
Qed.

Lemma bound_application_gets_draft_witness :
  sendInitialContent (message "initialContent" VUndefined) (from_tab tab9)
    pending_example =
    (Normal tt, pending_example,
     [SendResponse
        {| resp_secret := VString "S";
           resp_initialContent := Some "hello";
           resp_handler := "initialContent" |}]).
Proof.
  destruct (bound_application_gets_draft
              (message "initialContent" VUndefined) (from_tab tab9) tab9
              pending_example) as [_ H];
    [reflexivity | reflexivity | reflexivity |].
  exact H.
Defined.

(** X8.  No response of [initializeMessagePathway] or
    [sendInitialContent] carries a non-empty [initialContent] unless the
    sender has a tab, that tab's id is the value of
    [postingApplicationTabId], and the content is the pending starting
    value. *)
Theorem draft_only_to_bound_tab (request : Request)
    (sender : MessageSender) (g : Globals) (response : Response)
    (content : string) :
  List.In response
    (responses (effects_of (initializeMessagePathway request sender g)) ++
     responses (effects_of (sendInitialContent request sender g)))%list ->
  resp_initialContent response = Some content ->
  content <> "" ->
  exists tab : Tab,
    sender_tab sender = Some tab /\
    postingApplicationTabId g = Some (tab_id tab) /\
    content = postingApplicationStartingValue g.
Proof.
  intros Hin Hc Hne. revert Hin. unfold_script. split_script; cbn;
    intros Hin;
    repeat match goal with
      | H : _ \/ _ |- _ => destruct H
      | H : False |- _ => destruct H
      | H : _ = response |- _ => subst response; cbn in Hc
      end;
    try discriminate; try congruence;
    match goal with
    | H : tabId_equals _ _ = true |- _ => apply tabId_equals_true in H
    end;
    eexists; repeat split; congruence.
Qed.

Lemma draft_only_to_bound_tab_witness :
  exists tab : Tab,
    sender_tab (from_tab tab9) = Some tab /\
    postingApplicationTabId pending_example = Some (tab_id tab) /\
    "hello" = postingApplicationStartingValue pending_example.
Proof.
  apply (draft_only_to_bound_tab (message "initialContent" VUndefined)
           (from_tab tab9) pending_example
           {| resp_secret := VString "S"; resp_initialContent := Some "hello";
              resp_handler := "initialContent" |} "hello").
  - left. reflexivity.
  - reflexivity.
  - discriminate.
Defined.

(** ** Messages the listeners do not understand *)

(** X9.  A message whose [handler] is none of "messageSecret",
    "initialContent" and "privlyUrl" is ignored by the three listeners of
    [chrome.extension.onMessage], whoever sends it, a sender without a
    tab included: each completes, calls nothing and changes nothing. *)
Theorem unknown_handler_ignored (request : Request)
    (sender : MessageSender) (g : Globals) :
  handler request <> VString "messageSecret" ->
  handler request <> VString "initialContent" ->
  handler request <> VString "privlyUrl" ->
  initializeMessagePathway request sender g = (Normal tt, g, []) /\
  receiveNewPrivlyUrl request sender g = (Normal tt, g, []) /\
  sendInitialContent request sender g = (Normal tt, g, []).
Proof.
  intros H1 H2 H3. apply strict_equals_other in H1, H2, H3.
  unfold_script. rewrite H1, H2, H3. repeat split.
Qed.

Lemma unknown_handler_ignored_witness :
  initializeMessagePathway newPost {| sender_tab := None |} pending_example
    = (Normal tt, pending_example, []) /\
  receiveNewPrivlyUrl newPost {| sender_tab := None |} pending_example
    = (Normal tt, pending_example, []) /\
  sendInitialContent newPost {| sender_tab := None |} pending_example
    = (Normal tt, pending_example, []).
Proof.
  apply (unknown_handler_ignored newPost {| sender_tab := None |}
           pending_example); discriminate.
Defined.

(** X10.  A "messageSecret" or "initialContent" message whose sender has
    no tab makes [initializeMessagePathway] raise a [TypeError] on
    [sender.tab]; an "initialContent" one makes [sendInitialContent] raise
    it too.  Nothing is stored and nothing is answered. *)
Theorem tabless_sender_raises (request : Request) (sender : MessageSender)
    (g : Globals) :
  sender_tab sender = None ->
  (handler request = VString "messageSecret" \/
   handler request = VString "initialContent" ->
   initializeMessagePathway request sender g =
     (Throw (TypeError "sender.tab"), g, [])) /\
  (handler request = VString "initialContent" ->
   sendInitialContent request sender g =
     (Throw (TypeError "sender.tab"), g, [])).
Proof.
  intros Hs. split.
  - intros [Hh|Hh]; unfold_script; rewrite Hh, Hs; reflexivity.
  - intros Hh. unfold_script. rewrite Hh, Hs. reflexivity.
Qed.

Lemma tabless_sender_raises_witness :
  initializeMessagePathway (message "messageSecret" (VString "T"))
    {| sender_tab := None |} pending_example =
    (Throw (TypeError "sender.tab"), pending_example, []).
Proof.
  destruct (tabless_sender_raises (message "messageSecret" (VString "T"))
              {| sender_tab := None |} pending_example) as [H _];
    [reflexivity|].
  apply H. left. reflexivity.
Defined.

(** ** Sequences of events *)

Lemma deliver_all_app (ext : string) (es1 es2 : list Event) (g : Globals) :
  deliver_all ext (es1 ++ es2)%list g =
    (fst (deliver_all ext es2 (fst (deliver_all ext es1 g))),
     (snd (deliver_all ext es1 g) ++
      snd (deliver_all ext es2 (fst (deliver_all ext es1 g))))%list).
Proof.
  revert g. induction es1 as [|e es1 IH]; intros g.
  - cbn [deliver_all app fst snd]. now destruct (deliver_all ext es2 g).
  - cbn [deliver_all app fst snd]. rewrite IH. cbn [fst snd].
    now rewrite app_assoc.
Qed.

Lemma indexOf_zero_prefix_bool (s pat : string) :
  Z.eqb (indexOf s pat) 0 = String.prefix pat s.
Proof.
  destruct (String.prefix pat s) eqn:E.
  - apply Z.eqb_eq. now apply indexOf_zero_prefix.
  - apply Z.eqb_neq. intros H. apply indexOf_zero_prefix in H. congruence.
Qed.

Lemma secret_after_event (ext : string) (e : Event) (g : Globals) :
  messageSecret (globals_after (deliver ext e g)) =
    default (messageSecret g) (registered_token e).
Proof.
  destruct e as [[menu info tab|request sender]
                | |request sender| | |];
    unfold registered_token; unfold_script.
  4: destruct (sender_tab sender) as [tab|]; cbv beta iota;
     rewrite ?indexOf_zero_prefix_bool;
     destruct (strict_equals (handler request) (VString "messageSecret"));
     try destruct (String.prefix "chrome-extension://" (tab_url tab)).
  all: split_script; cbn in *; congruence.
Qed.

(** X11.  After any sequence of events the secret is the token of the
    last "messageSecret" message that came from a tab whose URL begins
    with [chrome-extension://], and the secret it was before when there
    was none: no trigger, callback, closure, relay or content request
    changes it, and no registration is refused because a secret is
    there. *)
Theorem secret_is_last_registered (ext : string) (es : list Event)
    (g : Globals) :
  messageSecret (fst (deliver_all ext es g)) =
    last_registered es (messageSecret g).
Proof.
  revert g. induction es as [|e es IH]; intros g; [reflexivity|].
  cbn [deliver_all fst]. rewrite IH, secret_after_event. reflexivity.
Qed.

Lemma host_implies_application_event (ext : string) (e : Event)
    (g : Globals) :
  host_implies_application g ->
  host_implies_application (globals_after (deliver ext e g)).
Proof.
  unfold host_implies_application.
  destruct e as [[menu info tab|request sender]| | | | |];
    unfold_script; split_script; cbn in *; intros H; intros;
    try congruence; auto; exfalso; now apply H.
Qed.

Lemma host_implies_application_events (ext : string) (es : list Event)
    (g : Globals) :
  host_implies_application g ->
  host_implies_application (fst (deliver_all ext es g)).
Proof.
  revert g. induction es as [|e es IH]; intros g H; [exact H|].
  cbn [deliver_all fst]. apply IH. now apply host_implies_application_event.
Qed.

(** X12.  From the moment the script is loaded, whatever events arrive
    in whatever order, with whatever arguments, and whichever of them end
    in an exception: [postingResultTab] is never bound while
    [postingApplicationTabId] is [undefined]. *)
Theorem host_never_bound_alone (ext : string) (es : list Event)
    (storage : gmap string string) :
  host_implies_application (fst (deliver_all ext es (initial storage))).
Proof.
  apply host_implies_application_events. intros H. now elim H.
Qed.

Lemma with_default_domain_twice (storage : gmap string string) :
  with_default_domain (with_default_domain storage) =
    with_default_domain storage.
Proof.
  unfold with_default_domain.
  destruct (storage !! "posting_content_server_url") as [domain|] eqn:E.
  - now rewrite E.
  - now rewrite lookup_insert_eq.
Qed.

Lemma storage_after_event (ext : string) (e : Event) (g : Globals) :
  localStorage (globals_after (deliver ext e g)) = localStorage g \/
  localStorage (globals_after (deliver ext e g)) =
    with_default_domain (localStorage g).
Proof.
  destruct e as [[menu info tab|request sender]| | | | |];
    unfold with_default_domain; unfold_script; split_script; cbn;
    auto.
Qed.

Lemma storage_after_events (ext : string) (es : list Event) (g : Globals) :
  localStorage (fst (deliver_all ext es g)) = localStorage g \/
  localStorage (fst (deliver_all ext es g)) =
    with_default_domain (localStorage g).
Proof.
  revert g. induction es as [|e es IH]; intros g; [now left|].
  cbn [deliver_all fst].
  destruct (IH (globals_after (deliver ext e g))) as [->| ->];
    destruct (storage_after_event ext e g) as [->| ->];
    rewrite ?with_default_domain_twice; auto.
Qed.

(** X13.  All the script ever does to [localStorage], over any sequence
    of events, is to set [posting_content_server_url] to
    "https://privlyalpha.org" when it was unset: a value that is stored,
    under this key or another, is never removed or replaced, and no other
    key is ever written. *)
Theorem storage_only_gains_default (ext : string) (es : list Event)
    (g : Globals) :
  let after := localStorage (fst (deliver_all ext es g)) in
  (after = localStorage g \/ after = with_default_domain (localStorage g)) /\
  (forall key v, localStorage g !! key = Some v -> after !! key = Some v) /\
  (forall key, key <> "posting_content_server_url" ->
               after !! key = localStorage g !! key).
Proof.
  intros after. subst after.
  pose proof (storage_after_events ext es g) as H. split; [exact H|].
  split.
  - intros key v Hv. destruct H as [->| ->]; [exact Hv|].
    unfold with_default_domain.
    destruct (localStorage g !! "posting_content_server_url") eqn:E;
      [exact Hv|].
    rewrite lookup_insert_ne; [exact Hv|]. intros <-. congruence.
  - intros key Hne. destruct H as [->| ->]; [reflexivity|].
    unfold with_default_domain.
    destruct (localStorage g !! "posting_content_server_url");
      [reflexivity|].
    now rewrite lookup_insert_ne.
Qed.

(** ** Triggers before the window is there *)

Lemma fire_unbound (ext : string) (t : Trigger) (g : Globals) :
  postingApplicationTabId g = None ->
  completed (fire ext t g) = Normal tt /\
  effects_of (fire ext t g) = window_for ext t /\
  postingApplicationTabId (globals_after (fire ext t g)) = None /\
  postingResultTab (globals_after (fire ext t g)) = postingResultTab g.
Proof.
  intros H. destruct t as [menu info tab|request sender];
    cbn [fire window_for]; unfold newPostListener;
    try destruct (strict_equals (ask request) (VString "newPost"));
    rewrite ?(postingHandler_opens ext _ _ _ g H); repeat split; exact H.
Qed.

(** X14.  [postingApplicationTabId] is bound by the callback, not by
    [postingHandler].  So as long as no callback has run, triggers are
    not rejected: each one that reaches [postingHandler] asks for a
    window of its own, none shows the warning, and the two identifiers
    are as before. *)
Theorem triggers_before_callback_all_open (ext : string)
    (ts : list Trigger) (g : Globals) :
  postingApplicationTabId g = None ->
  completed (fire_all ext ts g) = Normal tt /\
  effects_of (fire_all ext ts g) = flat_map (window_for ext) ts /\
  postingApplicationTabId (globals_after (fire_all ext ts g)) = None /\
  postingResultTab (globals_after (fire_all ext ts g)) = postingResultTab g.
Proof.
  revert g. induction ts as [|t ts IH]; intros g H; [now repeat split|].
  destruct (fire_unbound ext t g H) as (Hc & He & Ha & Hr).
  destruct (IH _ Ha) as (Hc' & He' & Ha' & Hr').
  cbn [fire_all flat_map].
  destruct (fire ext t g) as [[c g1] es1] eqn:E.
  cbn [completed globals_after effects_of fst snd] in *. subst c es1.
  rewrite (bind_normal _ _ _ _ _ _ E).
  cbn [completed globals_after effects_of fst snd].
  rewrite He'. repeat split; congruence.
Qed.

Lemma triggers_before_callback_all_open_witness :
  effects_of
    (fire_all extension_example
       [MenuClick PostWithZeroBin (OnClickData (Some "one")) (Some tab7);
        MenuClick PostWithPlainPost (OnClickData None) (Some tab11)]
       (initial ∅)) =
    [WindowsCreate (new_html extension_example "ZeroBin") (Some tab7);
     WindowsCreate (new_html extension_example "PlainPost") (Some tab11)].
Proof.
  destruct (triggers_before_callback_all_open extension_example
              [MenuClick PostWithZeroBin (OnClickData (Some "one"))
                 (Some tab7);
               MenuClick PostWithPlainPost (OnClickData None) (Some tab11)]
              (initial ∅)) as (_ & H & _); [reflexivity|].
  exact H.
Defined.

(** X15.  The callback does not look at the session either.  When a
    second window arrives while an application is bound, the session is
    bound anew to the second window's tab and its source tab; the tab
    bound before is not removed, and its closure afterwards goes
    unnoticed. *)
Theorem second_window_orphans_first (host tab : Tab) (others : list Tab)
    (first : Z) (g : Globals) :
  postingApplicationTabId g = Some first ->
  tab_id tab <> first ->
  tab_id host <> first ->
  let r := (postingHandler_created (Some host) {| win_tabs := tab :: others |}
            ;;; tabRemoved first) g in
  completed r = Normal tt /\
  effects_of r = [TabsSendMessage (tab_id host)
                  {| msg_privlyUrl := None; msg_pendingPost := true |}] /\
  postingApplicationTabId (globals_after r) = Some (tab_id tab) /\
  postingResultTab (globals_after r) = Some host.
Proof.
  intros Ha Ht Hh r. subst r.
  rewrite (bind_normal _ _ _ _ _ _
             (created_binds (Some host) host tab others g eq_refl)).
  rewrite (tabRemoved_bound first host (tab_id tab)) by reflexivity.
  destruct (Z.eqb_spec first (tab_id tab)) as [E|_]; [congruence|].
  destruct (Z.eqb_spec first (tab_id host)) as [E|_]; [congruence|].
  repeat split.
Qed.

Lemma second_window_orphans_first_witness :
  let r := (postingHandler_created (Some tab11) {| win_tabs := [tab11] |}
            ;;; tabRemoved 9) pending_example in
  postingApplicationTabId (globals_after r) = Some 11 /\
  postingResultTab (globals_after r) = Some tab11.
Proof.
  destruct (second_window_orphans_first tab11 tab11 [] 9 pending_example)
    as (_ & _ & Ha & Hr); [reflexivity | discriminate | discriminate |].
  exact (conj Ha Hr).
Defined.

(** ** A window for a trigger without a tab *)

(** X16.  A [newPost] message whose sender has no tab, no application
    being bound: the listener asks for a ZeroBin window with [undefined]
    for source tab.  The callback of that window binds
    [postingApplicationTabId] to the new tab, assigns [undefined] to
    [postingResultTab], and then raises a [TypeError] on
    [postingResultTab.id]: no tab is told that a post is pending. *)
Theorem newPost_without_tab_half_binds (ext : string) (request : Request)
    (tab : Tab) (others : list Tab) (g : Globals) :
  ask request = VString "newPost" ->
  postingApplicationTabId g = None ->
  let triggered := newPostListener ext request {| sender_tab := None |} g in
  let opened :=
    postingHandler_created None {| win_tabs := tab :: others |}
      (globals_after triggered) in
  effects_of triggered = [WindowsCreate (new_html ext "ZeroBin") None] /\
  completed opened = Throw (TypeError "postingResultTab") /\
  effects_of opened = [] /\
  postingApplicationTabId (globals_after opened) = Some (tab_id tab) /\
  postingResultTab (globals_after opened) = None.
Proof.
  intros Hask Ha triggered opened. subst triggered opened.
  unfold newPostListener. rewrite Hask.
  change (strict_equals (VString "newPost") (VString "newPost")) with true.
  cbv iota. rewrite (postingHandler_opens ext _ _ "ZeroBin" g Ha).
  repeat split.
Qed.

Lemma newPost_without_tab_half_binds_witness :
  let triggered :=
    newPostListener extension_example newPost {| sender_tab := None |}
      (initial ∅) in
  let opened :=
    postingHandler_created None {| win_tabs := [tab9] |}
      (globals_after triggered) in
  postingApplicationTabId (globals_after opened) = Some 9 /\
  postingResultTab (globals_after opened) = None.
Proof.
  destruct (newPost_without_tab_half_binds extension_example newPost tab9 []
              (initial ∅)) as (_ & _ & _ & Ha & Hr);
    [reflexivity | reflexivity |].
  exact (conj Ha Hr).
Defined.

Lemma half_bound_event (ext : string) (e : Event) (app : Z) (g : Globals) :
  postingResultTab g = None ->
  postingApplicationTabId g = Some app ->
  is_callback e = false ->
  postingResultTab (globals_after (deliver ext e g)) = None /\
  postingApplicationTabId (globals_after (deliver ext e g)) = Some app /\
  Forall (fun call => call = warning \/
                      exists response, call = SendResponse response)
    (effects_of (deliver ext e g)).
Proof.
  intros Hr Ha Hc.
  destruct e as [[menu info tab|request sender]| | | | |];
    try discriminate Hc; unfold_script; rewrite ?Hr, ?Ha;
    split_script; cbn; try congruence;
    repeat split; try congruence;
    repeat (apply Forall_cons_2;
            [first [now left | right; eexists; reflexivity]|]);
    apply Forall_nil_2.
Qed.

(** X17.  Once [postingApplicationTabId] is bound while
    [postingResultTab] is [undefined], as the callback of a trigger
    without a source tab leaves them, no sequence of triggers, messages
    and closures changes either: every closure is ignored, every link is
    ignored, every trigger is answered by the warning.  The calls made in
    the meantime are warnings and responses only; no tab is removed,
    selected or sent a message. *)
Theorem half_bound_session_stays (ext : string) (es : list Event) (app : Z)
    (g : Globals) :
  postingResultTab g = None ->
  postingApplicationTabId g = Some app ->
  Forall (fun e => is_callback e = false) es ->
  postingResultTab (fst (deliver_all ext es g)) = None /\
  postingApplicationTabId (fst (deliver_all ext es g)) = Some app /\
  Forall (fun call => call = warning \/
                      exists response, call = SendResponse response)
    (snd (deliver_all ext es g)).
Proof.
  intros Hr Ha Hes. revert g Hr Ha.
  induction Hes as [|e es He Hes IH]; intros g Hr Ha;
    [now repeat split|].
  destruct (half_bound_event ext e app g Hr Ha He) as (Hr1 & Ha1 & Hf1).
  destruct (IH _ Hr1 Ha1) as (Hr2 & Ha2 & Hf2).
  cbn [deliver_all fst snd]. repeat split; try assumption.
  apply Forall_app. now split.
Qed.

Lemma half_bound_session_stays_witness :
  let stuck :=
    globals_after
      (postingHandler_created None {| win_tabs := [tab9] |} (initial ∅)) in
  let es :=
    [TabRemoved 9;
     ToReceiveNewPrivlyUrl (message "privlyUrl" (VString "https://x/p/abc"))
       (from_tab tab9);
     Triggered (MenuClick PostWithZeroBin (OnClickData None) (Some tab7));
     TabRemoved 7] in
  postingResultTab (fst (deliver_all extension_example es stuck)) = None /\
  postingApplicationTabId (fst (deliver_all extension_example es stuck))
    = Some 9.
Proof.
  intros stuck es.
  destruct (half_bound_session_stays extension_example es 9 stuck)
    as (Hr & Ha & _); [reflexivity | reflexivity | |].
  - repeat constructor.
  - exact (conj Hr Ha).
Defined.

(** ** Whole sessions *)

(** X18.  Opening and closing gives the variables back.  From an idle
    session whose starting value is empty, a menu click from a tab, the
    callback with the new window, and then the closure of the
    application's tab or of the host tab leave every variable as it was
    before the click, except that [posting_content_server_url] has its
    default if it was unset; whatever text was selected is forgotten. *)
Theorem open_then_close_restores (ext : string) (menu : PostingMenu)
    (info : Info) (host tab : Tab) (others : list Tab) (closed : Z)
    (g : Globals) :
  idle g ->
  postingApplicationStartingValue g = "" ->
  closed = tab_id tab \/ closed = tab_id host ->
  fst (deliver_all ext
         [Triggered (MenuClick menu info (Some host));
          WindowCreated (Some host) {| win_tabs := tab :: others |};
          TabRemoved closed] g) =
    set_localStorage (with_default_domain (localStorage g)) g.
Proof.
  intros [Hr Ha] Hs Hc. cbn [deliver_all deliver fire fst].
  rewrite (postingHandler_opens ext info (Some host) _ g Ha).
  cbn [globals_after fst snd].
  rewrite (created_binds (Some host) host tab others _ eq_refl).
  cbn [globals_after fst snd].
  rewrite (tabRemoved_bound closed host (tab_id tab)) by reflexivity.
  assert (E : Z.eqb closed (tab_id tab) = true \/
              Z.eqb closed (tab_id host) = true)
    by (destruct Hc as [->| ->]; rewrite Z.eqb_refl; auto).
  destruct g as [secret r a s storage]. cbn in Hr, Ha, Hs. subst r a s.
  destruct (Z.eqb closed (tab_id tab)); [reflexivity|].
  destruct (Z.eqb closed (tab_id host)); [reflexivity|].
  destruct E; discriminate.
Qed.

Lemma open_then_close_restores_witness :
  fst (deliver_all extension_example
         [Triggered (MenuClick PostWithZeroBin (OnClickData (Some "hello"))
                       (Some tab7));
          WindowCreated (Some tab7) {| win_tabs := [tab9] |};
          TabRemoved 7] (initial ∅)) =
    set_localStorage (with_default_domain ∅) (initial ∅).
Proof.
  apply (open_then_close_restores extension_example PostWithZeroBin
           (OnClickData (Some "hello")) tab7 tab9 [] 7 (initial ∅)).
  - split; reflexivity.
  - reflexivity.
  - right. reflexivity.
Defined.

Lemma content_served (request : Request) (sender : MessageSender)
    (tab : Tab) (g : Globals) :
  handler request = VString "initialContent" ->
  sender_tab sender = Some tab ->
  postingApplicationTabId g = Some (tab_id tab) ->
  sendInitialContent request sender g =
    (Normal tt, g,
     [SendResponse
        (initialContent_response (messageSecret g)
           (postingApplicationStartingValue g))]).
Proof.
  intros Hh Ht Ha. unfold_script. rewrite Hh, Ht.
  change (strict_equals (VString "initialContent") (VString "initialContent"))
    with true.
  cbv beta iota. unfold tabId_equals. rewrite Ha, Z.eqb_refl. reflexivity.
Qed.

Lemma pathway_serves (request : Request) (sender : MessageSender)
    (tab : Tab) (g : Globals) :
  handler request = VString "initialContent" ->
  sender_tab sender = Some tab ->
  postingApplicationTabId g = Some (tab_id tab) ->
  initializeMessagePathway request sender g =
    (Normal tt, g,
     [SendResponse
        (initialContent_response (messageSecret g)
           (postingApplicationStartingValue g))]).
Proof.
  intros Hh Ht Ha. unfold_script. rewrite Hh, Ht.
  change (strict_equals (VString "initialContent") (VString "messageSecret"))
    with false.
  change (strict_equals (VString "initialContent") (VString "initialContent"))
    with true.
  cbv beta iota. unfold tabId_equals. rewrite Ha, Z.eqb_refl. reflexivity.
Qed.

Lemma content_request_is_no_link (request : Request)
    (sender : MessageSender) (g : Globals) :
  handler request = VString "initialContent" ->
  receiveNewPrivlyUrl request sender g = (Normal tt, g, []).
Proof. intros Hh. unfold_script. rewrite Hh. reflexivity. Qed.

Lemma link_is_no_content_request (request : Request)
    (sender : MessageSender) (g : Globals) :
  handler request = VString "privlyUrl" ->
  initializeMessagePathway request sender g = (Normal tt, g, []) /\
  sendInitialContent request sender g = (Normal tt, g, []).
Proof. intros Hh. unfold_script. rewrite Hh. split; reflexivity. Qed.

Lemma no_newPost (ext : string) (request : Request)
    (sender : MessageSender) (g : Globals) :
  ask request <> VString "newPost" ->
  newPostListener ext request sender g = (Normal tt, g, []).
Proof.
  intros H. unfold newPostListener.
  now rewrite (strict_equals_other _ _ H).
Qed.

Lemma deliver_all_step (ext : string) (e : Event) (es : list Event)
    (g g1 : Globals) (c : completion unit) (calls : list Effect) :
  deliver ext e g = (c, g1, calls) ->
  deliver_all ext (e :: es) g =
    (fst (deliver_all ext es g1), (calls ++ snd (deliver_all ext es g1))%list).
Proof. intros H. cbn [deliver_all]. now rewrite H. Qed.

(** X19.  A whole post.  From an unbound session: a menu click from the
    host tab, the callback with the new window, a request for the initial
    content from the new tab, and the link from the new tab, each message
    going to all four listeners in the order of their registration
    (neither message asks for a new post).  The calls are seven, in this
    order: the window is asked for; the host is sent
    [{pendingPost: true}]; the application is answered with the secret and
    the selected text twice, by [initializeMessagePathway] and by
    [sendInitialContent]; the host tab is selected; it is sent the link
    with [pendingPost: false]; the application's tab is removed.  At the
    end both identifiers are [undefined], so the next trigger is accepted;
    the secret is as before and the starting value is still the selected
    text. *)
Theorem whole_post (ext : string) (menu : PostingMenu) (info : Info)
    (host tab : Tab) (others : list Tab) (content link : Request)
    (g : Globals) :
  postingApplicationTabId g = None ->
  handler content = VString "initialContent" ->
  handler link = VString "privlyUrl" ->
  ask content <> VString "newPost" ->
  ask link <> VString "newPost" ->
  let session :=
    deliver_all ext
      ([Triggered (MenuClick menu info (Some host));
        WindowCreated (Some host) {| win_tabs := tab :: others |}]
       ++ message_events content (from_tab tab)
       ++ message_events link (from_tab tab))%list g in
  let served : Response :=
    {| resp_secret := messageSecret g;
       resp_initialContent :=
         Some match info_selectionText info with
              | Some text => text
              | None => ""
              end;
       resp_handler := "initialContent" |} in
  snd session =
    [WindowsCreate
       {| cd_url :=
            "chrome-extension://" +:+ ext +:+ "/" +:+
            ("privly-applications/" +:+ menu_application menu
             +:+ "/new.html");
          cd_focused := true; cd_top := 0; cd_left := 0;
          cd_type := "normal" |}
       (Some host);
     TabsSendMessage (tab_id host)
       {| msg_privlyUrl := None; msg_pendingPost := true |};
     SendResponse served;
     SendResponse served;
     TabsUpdate (tab_id host) true;
     TabsSendMessage (tab_id host)
       {| msg_privlyUrl := Some (data link); msg_pendingPost := false |};
     TabsRemove (tab_id tab)] /\
  idle (fst session) /\
  messageSecret (fst session) = messageSecret g /\
  postingApplicationStartingValue (fst session) =
    match info_selectionText info with
    | Some text => text
    | None => ""
    end.
Proof.
  intros Ha Hc Hl Hac Hal session served. subst session served.
  destruct (link_is_no_content_request link (from_tab tab)) with
    (g := set_postingResultTab (Some host)
            (set_postingApplicationTabId (Some (tab_id tab))
               (set_postingApplicationStartingValue (selection_or_empty info)
                  (set_localStorage (with_default_domain (localStorage g))
                     g)))) as [Hp _]; [exact Hl|].
  destruct (link_is_no_content_request link (from_tab tab)) with
    (g := set_postingResultTab None
            (set_postingApplicationTabId None
               (set_postingResultTab (Some host)
                  (set_postingApplicationTabId (Some (tab_id tab))
                     (set_postingApplicationStartingValue
                        (selection_or_empty info)
                        (set_localStorage
                           (with_default_domain (localStorage g)) g))))))
    as [_ Hs]; [exact Hl|].
  unfold message_events. cbn [app].
  erewrite deliver_all_step
    by (cbn [deliver fire]; apply postingHandler_opens; exact Ha).
  erewrite deliver_all_step
    by (cbn [deliver]; apply created_binds; reflexivity).
  erewrite deliver_all_step
    by (cbn [deliver];
        apply (pathway_serves content (from_tab tab) tab);
        [exact Hc | reflexivity | reflexivity]).
  erewrite deliver_all_step
    by (cbn [deliver]; apply content_request_is_no_link; exact Hc).
  erewrite deliver_all_step
    by (cbn [deliver];
        apply (content_served content (from_tab tab) tab);
        [exact Hc | reflexivity | reflexivity]).
  erewrite deliver_all_step
    by (cbn [deliver fire]; apply no_newPost; exact Hac).
  erewrite deliver_all_step by (cbn [deliver]; exact Hp).
  erewrite deliver_all_step
    by (cbn [deliver];
        apply (relay link (from_tab tab) host tab);
        [exact Hl | reflexivity | reflexivity]).
  erewrite deliver_all_step by (cbn [deliver]; exact Hs).
  erewrite deliver_all_step
    by (cbn [deliver fire]; apply no_newPost; exact Hal).
  repeat split.
Qed.

Lemma whole_post_witness :
  let session :=
    deliver_all extension_example
      ([Triggered (MenuClick PostWithZeroBin (OnClickData (Some "hello"))
                     (Some tab7));
        WindowCreated (Some tab7) {| win_tabs := [tab9] |}]
       ++ message_events (message "initialContent" VUndefined)
            (from_tab tab9)
       ++ message_events (message "privlyUrl" (VString "https://x/p/abc"))
            (from_tab tab9))%list (initial ∅) in
  idle (fst session) /\
  postingApplicationStartingValue (fst session) = "hello".
Proof.
  destruct (whole_post extension_example PostWithZeroBin
              (OnClickData (Some "hello")) tab7 tab9 []
              (message "initialContent" VUndefined)
              (message "privlyUrl" (VString "https://x/p/abc"))
              (initial ∅)) as (_ & Hidle & _ & Hs);
    [reflexivity | reflexivity | reflexivity | discriminate | discriminate |].
  exact (conj Hidle Hs).
Defined.

(** X20.  A link is relayed once.  After a relay, a further message to
    [receiveNewPrivlyUrl], whatever it holds and whoever sends it, does
    nothing: the host tab is not sent a second link and no second tab is
    removed. *)
Theorem link_relayed_once (first second : Request)
    (sender1 sender2 : MessageSender) (host app : Tab) (g : Globals) :
  handler first = VString "privlyUrl" ->
  postingResultTab g = Some host ->
  sender_tab sender1 = Some app ->
  (receiveNewPrivlyUrl first sender1 ;;; receiveNewPrivlyUrl second sender2) g
    = receiveNewPrivlyUrl first sender1 g.
Proof.
  intros Hh Hr Hs.
  pose proof (relay first sender1 host app g Hh Hr Hs) as H.
  rewrite (bind_normal _ _ _ _ _ _ H), H.
  unfold receiveNewPrivlyUrl at 1 2 3. rewrite !bind_read.
  cbn [postingResultTab set_postingResultTab]. rewrite andb_false_r.
  reflexivity.
Qed.

Lemma link_relayed_once_witness :
  (receiveNewPrivlyUrl (message "privlyUrl" (VString "https://x/p/abc"))
     (from_tab tab9) ;;;
   receiveNewPrivlyUrl (message "privlyUrl" (VString "https://x/p/def"))
     (from_tab tab11)) pending_example =
  receiveNewPrivlyUrl (message "privlyUrl" (VString "https://x/p/abc"))
    (from_tab tab9) pending_example.
Proof.
  apply (link_relayed_once
           (message "privlyUrl" (VString "https://x/p/abc"))
           (message "privlyUrl" (VString "https://x/p/def"))
           (from_tab tab9) (from_tab tab11) tab7 tab9 pending_example);
    reflexivity.
Defined.
